(** * Customer-support workflow: classifier, router, responder, escalation

    A shallow embedding of the orchestration core of the repository
    (classifier_agent.py, rag_responder.py, escalation_agent.py,
    langgraph_workflow.py and the chat endpoint of api_server.py), followed
    by the properties of the routing policy, the fallbacks and the result
    contract.

    Python values are a small universe of dynamically typed values; a dict is
    a finite map with string keys; a float is an IEEE 754 binary64 number, as
    in CPython.  The three external capabilities (structured classification,
    similarity search, text generation) and the clock are parameters: each one
    answers from the list of calls made so far, so an answer may change from
    one attempt to the next.  Code runs in a monad that threads this call
    history and carries Python exceptions.  [print] statements are tracing
    only and are left out. *)

From Stdlib Require Import Ascii PrimFloat SpecFloat FloatOps.
From stdpp Require Import gmap strings list fin_maps.

Set Warnings "-inexact-float,-register-all".

(** ** Python values *)

Inductive pyval :=
| VNone
| VStr (s : string)
| VFloat (f : float)
| VBool (b : bool)
| VInt (n : Z)
| VList (l : list pyval)
| VDict (d : gmap string pyval).

(** An instance of [Exception]; [str_of e] is Python's [str(e)]. *)
Inductive Exception := Exc (msg : string).

Definition str_of (e : Exception) : string :=
  match e with Exc msg => msg end.

(** ** Calls to the outside world *)

Inductive call :=
| InvokeClassifier (query : string)
| InvokeRetriever (query : string) (k : nat)
| InvokeLLM (system_prompt context query : string)
| ReadClock.

Abbreviation history := (list call).

Inductive outcome (A : Type) :=
| Return (a : A)
| Raise (e : Exception).
Arguments Return {A} a.
Arguments Raise {A} e.

(** A computation reads the calls made so far and extends them. *)
Definition M (A : Type) : Type := history → outcome A * history.

Global Instance M_ret : MRet M := λ A a h, (Return a, h).

Global Instance M_bind : MBind M := λ A B f m h,
  match m h with
  | (Return a, h') => f a h'
  | (Raise e, h') => (Raise e, h')
  end.

Definition raise {A} (e : Exception) : M A := λ h, (Raise e, h).

(** [try: body except Exception as e: handler e]. *)
Definition try_except {A} (body : M A) (handler : Exception → M A) : M A :=
  λ h, match body h with
       | (Return a, h') => (Return a, h')
       | (Raise e, h') => handler e h'
       end.

(** One call to an external capability: it answers from the history and the
    call is recorded. *)
Definition perform {A} (c : call) (answer : history → outcome A) : M A :=
  λ h, (answer h, h ++ [c]).

(** ** Dict and comparison primitives *)

(** The dict display [{**base, k1: v1, ..., kn: vn}]: later items win. *)
Definition dict_update (base : gmap string pyval) (items : list (string * pyval))
    : gmap string pyval :=
  foldl (λ d kv, <[kv.1 := kv.2]> d) base items.

(** [{k1: v1, ..., kn: vn}] *)
Definition dict (items : list (string * pyval)) : gmap string pyval :=
  dict_update ∅ items.

(** [d[key]]: a missing key raises KeyError. *)
Definition getitem (d : gmap string pyval) (key : string) : M pyval :=
  match d !! key with
  | Some v => mret v
  | None => raise (Exc ("'" +:+ key +:+ "'"))
  end.

(** [d.get(key, default)]. *)
Definition get (d : gmap string pyval) (key : string) (default : pyval) : pyval :=
  match d !! key with
  | Some v => v
  | None => default
  end.

(** [v == s] for a str literal [s]: only an equal str compares equal. *)
Definition py_eq_str (v : pyval) (s : string) : bool :=
  match v with
  | VStr t => String.eqb t s
  | _ => false
  end.

(** Exact comparison [n < c] of an int with a float, as CPython does it. *)
Definition Z_ltb_float (n : Z) (c : float) : bool :=
  match Prim2SF c with
  | S754_nan => false
  | S754_infinity s => negb s
  | S754_zero _ => (n <? 0)%Z
  | S754_finite s m e =>
      let v := if s then Z.neg m else Z.pos m in
      if (0 <=? e)%Z then (n <? v * 2 ^ e)%Z else (n * 2 ^ (- e) <? v)%Z
  end.

(** [v < c] for a float literal [c]; str, list, dict and None raise
    TypeError, bool and int compare as numbers. *)
Definition py_lt_float (v : pyval) (c : float) : M bool :=
  match v with
  | VFloat f => mret (PrimFloat.ltb f c)
  | VInt n => mret (Z_ltb_float n c)
  | VBool b => mret (Z_ltb_float (if b then 1 else 0) c)
  | _ => raise (Exc "'<' not supported between instances")
  end.

(** ** External capabilities *)

(** A retrieved fragment (langchain's Document; only [page_content] is read). *)
Record Document := { page_content : string }.

(** What the structured-output model hands back before validation. *)
Record RawClassification := {
  raw_category : string;
  raw_confidence : float;
  raw_reasoning : string
}.

Record Services := {
  structured_llm : history → string → outcome RawClassification;
  similarity_search : history → string → nat → outcome (list Document);
  chat_llm : history → string → string → string → outcome string;
  datetime_now_isoformat : history → string
}.

(** ** classifier_agent.py *)

Module ClassifierAgent.

(** class QueryClassification(BaseModel) *)
Record QueryClassification := {
  category : string;
  confidence : float;
  reasoning : string
}.

Definition category_literals : list string :=
  ["products"; "returns"; "general"; "unhandled"].

(** The declared field constraints: the Literal of [category] and
    [ge=0.0, le=1.0] on [confidence]. *)
Definition validate (raw : RawClassification) : outcome QueryClassification :=
  if negb (bool_decide (raw_category raw ∈ category_literals)) then
    Raise (Exc "validation error for QueryClassification: category")
  else if negb (PrimFloat.leb 0.0 (raw_confidence raw)) then
    Raise (Exc "validation error for QueryClassification: confidence ge")
  else if negb (PrimFloat.leb (raw_confidence raw) 1.0) then
    Raise (Exc "validation error for QueryClassification: confidence le")
  else
    Return {| category := raw_category raw;
              confidence := raw_confidence raw;
              reasoning := raw_reasoning raw |}.

(** [self.chain.invoke({"query": query})] with
    [chain = prompt | llm.with_structured_output(QueryClassification)]. *)
Definition chain_invoke (svc : Services) (query : string) : M QueryClassification :=
  perform (InvokeClassifier query)
    (λ h, match structured_llm svc h query with
          | Return raw => validate raw
          | Raise e => Raise e
          end).

Definition classify (svc : Services) (query : string) : M (gmap string pyval) :=
  try_except
    (result ← chain_invoke svc query;
     mret (dict [("category", VStr (category result));
                 ("confidence", VFloat (confidence result));
                 ("reasoning", VStr (reasoning result))]))
    (λ e,
     mret (dict [("category", VStr "unhandled");
                 ("confidence", VFloat 0.0);
                 ("reasoning", VStr ("Classification error: " +:+ str_of e))])).

End ClassifierAgent.

(** ** str helpers *)

Definition dquote : string := String "034"%char EmptyString.

(** [sep.join(parts)]. *)
Fixpoint join (sep : string) (parts : list string) : string :=
  match parts with
  | [] => EmptyString
  | [p] => p
  | p :: rest => p +:+ sep +:+ join sep rest
  end.

(** [s[:n]]: the first [n] characters, all of [s] when it is shorter. *)
Fixpoint slice_to (n : nat) (s : string) : string :=
  match n, s with
  | S n', String c s' => String c (slice_to n' s')
  | _, _ => EmptyString
  end.

(** ** rag_responder.py *)

Module RAGResponder.

(** [search_kwargs={"k": 4}] *)
Definition k : nat := 4.

(** [self.retriever.invoke(query)] *)
Definition retriever_invoke (svc : Services) (query : string) : M (list Document) :=
  perform (InvokeRetriever query k) (λ h, similarity_search svc h query k).

(** System messages of the three prompt templates. *)
Definition prompts : gmap string string :=
  <["products" :=
"You are a helpful customer support assistant for TechGear Electronics.
Use the following product information to answer the customer's question about our products.

Product Information:
{context}

Provide a clear, accurate response. If the information isn't in the context, say so politely."]>
  (<["returns" :=
"You are a helpful customer support assistant for TechGear Electronics.
Use the following information to answer the customer's question about returns, refunds, or exchanges.

Information:
{context}

Provide a clear, professional response about our return policies."]>
  (<["general" :=
"You are a helpful customer support assistant for TechGear Electronics.
Use the following information to answer the customer's general question.

Information:
{context}

Provide a helpful, professional response. Include contact information if relevant."]> ∅)).

Definition nl : string := String "010"%char EmptyString.

Definition _format_docs (docs : list Document) : string :=
  join (nl +:+ nl) (page_content <$> docs).

(** [self.prompts.get(category, self.prompts["general"])]; the default is
    evaluated first and [self.prompts["general"]] always exists. *)
Definition select_prompt (category : string) : string :=
  default (default EmptyString (prompts !! "general")) (prompts !! category).

(** [rag_chain.invoke(query)]: the chain retrieves on its own, formats the
    fragments into the context and asks the model. *)
Definition rag_chain_invoke (svc : Services) (prompt query : string) : M string :=
  docs ← retriever_invoke svc query;
  let context := _format_docs docs in
  perform (InvokeLLM prompt context query) (λ h, chat_llm svc h prompt context query).

Definition preview (doc : Document) : pyval :=
  VStr (slice_to 200 (page_content doc) +:+ "...").

Definition apology : string :=
  "I apologize, but I encountered an error processing your request. Please contact support@techgear.com".

Definition respond (svc : Services) (query category : string) : M (gmap string pyval) :=
  try_except
    (let prompt := select_prompt category in
     docs ← retriever_invoke svc query;
     response ← rag_chain_invoke svc prompt query;
     mret (dict [("response", VStr response);
                 ("retrieved_docs", VList (preview <$> docs));
                 ("num_docs", VInt (Z.of_nat (length docs)));
                 ("success", VBool true)]))
    (λ e,
     mret (dict [("response", VStr apology);
                 ("retrieved_docs", VList []);
                 ("num_docs", VInt 0);
                 ("success", VBool false);
                 ("error", VStr (str_of e))])).

End RAGResponder.

(** ** escalation_agent.py *)

Module EscalationAgent.

Definition support_email : string := "support@techgear.com".
Definition support_hours : string := "Mon-Sat, 9AM-6PM IST".
Definition response_time : string := "24 hours".

(** The [if]/[elif]/[else] that picks [escalation_reason]. *)
Definition escalation_reason (category : string) (confidence : float) : string :=
  if String.eqb category "unhandled" then "This query requires human assistance"
  else if PrimFloat.ltb confidence 0.7 then "The query needs clarification"
  else "This request needs specialized support".

Definition escalation_message (query reason : string) : string :=
"I apologize, but I need to connect you with a human support agent for this request.

**Your Query:** " +:+ dquote +:+ query +:+ dquote +:+ "

**Reason:** " +:+ reason +:+ "

Our support team is here to help you with:
• Complex technical issues
• Account-specific inquiries  
• Special requests and customizations
• Detailed product consultations

**Contact Information:**
📧 **Email:** " +:+ support_email +:+ "
⏰ **Hours:** " +:+ support_hours +:+ "
⏱️ **Response Time:** Within " +:+ response_time +:+ "

A support agent will review your request and respond as soon as possible.

Thank you for your patience!".

Definition escalate (svc : Services) (query category : string)
    (confidence : float) (reasoning : string) : M (gmap string pyval) :=
  let response := escalation_message query (escalation_reason category confidence) in
  timestamp ← perform ReadClock (λ h, Return (datetime_now_isoformat svc h));
  let escalation_log :=
    dict [("timestamp", VStr timestamp);
          ("query", VStr query);
          ("category", VStr category);
          ("confidence", VFloat confidence);
          ("reasoning", VStr reasoning);
          ("status", VStr "escalated")] in
  mret (dict [("response", VStr response);
              ("requires_escalation", VBool true);
              ("escalation_log", VDict escalation_log);
              ("contact_info",
               VDict (dict [("email", VStr support_email);
                            ("hours", VStr support_hours);
                            ("response_time", VStr response_time)]))]).

Definition clarification_message (query : string) : string :=
"Thank you for contacting TechGear Electronics!

I'd be happy to help, but I need a bit more information to provide you with the best answer.

**Your Query:** " +:+ dquote +:+ query +:+ dquote +:+ "

Could you please provide more details about:
• What product or service you're asking about?
• What specific information do you need?
• Is this related to a purchase, return, or general inquiry?

Alternatively, you can:
📧 **Email us:** " +:+ support_email +:+ " with detailed information
⏰ **Available:** " +:+ support_hours +:+ "

Thank you for your understanding!".

Definition generate_clarification_request (query : string) : gmap string pyval :=
  dict [("response", VStr (clarification_message query));
        ("requires_escalation", VBool false);
        ("needs_clarification", VBool true)].

End EscalationAgent.

(** ** langgraph_workflow.py *)

(** The agents are annotated [query: str], [category: str],
    [confidence: float], [reasoning: str]; the nodes hand them entries of the
    state, which hold values of these types in every state the workflow
    builds.  An entry of another type is reported as a TypeError. *)
Definition as_str (v : pyval) : M string :=
  match v with
  | VStr s => mret s
  | _ => raise (Exc "TypeError: expected str")
  end.

Definition as_float (v : pyval) : M float :=
  match v with
  | VFloat f => mret f
  | _ => raise (Exc "TypeError: expected float")
  end.

Module CustomerSupportWorkflow.

Definition _classifier_node (svc : Services) (state : gmap string pyval)
    : M (gmap string pyval) :=
  query ← getitem state "query" ≫= as_str;
  result ← ClassifierAgent.classify svc query;
  category ← getitem result "category";
  confidence ← getitem result "confidence";
  reasoning ← getitem result "reasoning";
  mret (dict_update state [("category", category);
                           ("confidence", confidence);
                           ("reasoning", reasoning);
                           ("node_executed", VStr "classifier")]).

Definition _rag_responder_node (svc : Services) (state : gmap string pyval)
    : M (gmap string pyval) :=
  query ← getitem state "query" ≫= as_str;
  category ← getitem state "category" ≫= as_str;
  result ← RAGResponder.respond svc query category;
  response ← getitem result "response";
  mret (dict_update state [("response", response);
                           ("retrieved_docs", get result "retrieved_docs" (VList []));
                           ("node_executed", VStr "rag_responder");
                           ("requires_escalation", VBool false)]).

(** [state["confidence"] < 0.5 and state["category"] != "unhandled"];
    [and] evaluates its right operand only when the left one is true. *)
Definition needs_clarification (state : gmap string pyval) : M bool :=
  confidence ← getitem state "confidence";
  low ← py_lt_float confidence 0.5;
  if (low : bool) then
    category ← getitem state "category";
    mret (negb (py_eq_str category "unhandled"))
  else mret false.

(** The handler call of the escalation node: its [if]/[else]. *)
Definition escalation_result (svc : Services) (state : gmap string pyval)
    : M (gmap string pyval) :=
  clarify ← needs_clarification state;
  if (clarify : bool) then
    query ← getitem state "query" ≫= as_str;
    mret (EscalationAgent.generate_clarification_request query)
  else
    query ← getitem state "query" ≫= as_str;
    category ← getitem state "category" ≫= as_str;
    confidence ← getitem state "confidence" ≫= as_float;
    reasoning ← getitem state "reasoning" ≫= as_str;
    EscalationAgent.escalate svc query category confidence reasoning.

Definition _escalation_node (svc : Services) (state : gmap string pyval)
    : M (gmap string pyval) :=
  result ← escalation_result svc state;
  response ← getitem result "response";
  mret (dict_update state
          [("response", response);
           ("node_executed", VStr "escalation");
           ("requires_escalation", get result "requires_escalation" (VBool true));
           ("escalation_log", get result "escalation_log" (VDict ∅))]).

Definition _route_query (state : gmap string pyval) : M string :=
  category ← getitem state "category";
  confidence ← getitem state "confidence";
  if py_eq_str category "unhandled" then mret "escalate"
  else
    low ← py_lt_float confidence 0.7;
    if (low : bool) then mret "escalate" else mret "rag".

(** *** The graph of [_build_graph] *)

Inductive node := classifier | rag_responder | escalation.

Inductive target := To (n : node) | END.

Definition entry_point : node := classifier.

Definition run_node (svc : Services) (n : node)
    : gmap string pyval → M (gmap string pyval) :=
  match n with
  | classifier => _classifier_node svc
  | rag_responder => _rag_responder_node svc
  | escalation => _escalation_node svc
  end.

(** The path map of [add_conditional_edges]. *)
Definition conditional_edges : gmap string node :=
  <["rag" := rag_responder]> (<["escalate" := escalation]> ∅).

Definition successor (n : node) (state : gmap string pyval) : M target :=
  match n with
  | classifier =>
      branch ← _route_query state;
      match conditional_edges !! branch with
      | Some n' => mret (To n')
      | None => raise (Exc ("KeyError: '" +:+ branch +:+ "'"))
      end
  | rag_responder => mret END
  | escalation => mret END
  end.

(** The compiled graph runs a node, then follows its outgoing edge; the
    number of steps is bounded by the recursion limit. *)
Definition recursion_limit : nat := 25.

Fixpoint run (fuel : nat) (svc : Services) (n : node) (state : gmap string pyval)
    : M (gmap string pyval) :=
  match fuel with
  | O => raise (Exc "GraphRecursionError")
  | S fuel' =>
      state' ← run_node svc n state;
      next ← successor n state';
      match (next : target) with
      | END => mret state'
      | To n' => run fuel' svc n' state'
      end
  end.

Definition graph_invoke (svc : Services) (state : gmap string pyval)
    : M (gmap string pyval) :=
  run recursion_limit svc entry_point state.

Definition initial_state (query : string) : gmap string pyval :=
  dict [("query", VStr query);
        ("category", VStr "general");
        ("confidence", VFloat 0.0);
        ("reasoning", VStr EmptyString);
        ("retrieved_docs", VList []);
        ("context", VStr EmptyString);
        ("response", VStr EmptyString);
        ("node_executed", VStr EmptyString);
        ("requires_escalation", VBool false);
        ("escalation_log", VDict ∅)].

Definition process_query (svc : Services) (query : string) : M (gmap string pyval) :=
  graph_invoke svc (initial_state query).

End CustomerSupportWorkflow.

(** ** api_server.py: the chat endpoint *)

Module ApiServer.

Module ChatRequest.
Record t := {
  query : string;
  session_id : option string
}.
End ChatRequest.

Module ChatResponse.
Record t := {
  response : string;
  category : string;
  confidence : float;
  reasoning : string;
  node_executed : string;
  requires_escalation : bool;
  retrieved_docs : option (list string);
  timestamp : string;
  session_id : option string
}.
End ChatResponse.

(** What the endpoint sends back: the response model, or the error reply
    FastAPI builds from a raised HTTPException. *)
Inductive reply :=
| OK (body : ChatResponse.t)
| HTTPException (status_code : nat) (detail : string).

(** Field validation of the response model.  A value of the declared type
    passes; the coercions pydantic applies to other types are not modelled
    and count as validation errors. *)
Definition validate_bool (v : pyval) : M bool :=
  match v with
  | VBool b => mret b
  | _ => raise (Exc "validation error for ChatResponse: bool")
  end.

Fixpoint validate_str_list (l : list pyval) : M (list string) :=
  match l with
  | [] => mret []
  | VStr s :: rest => strs ← validate_str_list rest; mret (s :: strs)
  | _ => raise (Exc "validation error for ChatResponse: List[str]")
  end.

Definition validate_optional_str_list (v : pyval) : M (option (list string)) :=
  match v with
  | VNone => mret None
  | VList l => strs ← validate_str_list l; mret (Some strs)
  | _ => raise (Exc "validation error for ChatResponse: Optional[List[str]]")
  end.

(** [ChatResponse(response=..., ..., session_id=...)]; [timestamp] is not
    passed and comes from its [default_factory]. *)
Definition ChatResponse_init (svc : Services)
    (response category confidence reasoning node_executed requires_escalation
       retrieved_docs : pyval)
    (session_id : option string) : M ChatResponse.t :=
  response ← as_str response;
  category ← as_str category;
  confidence ← as_float confidence;
  reasoning ← as_str reasoning;
  node_executed ← as_str node_executed;
  requires_escalation ← validate_bool requires_escalation;
  retrieved_docs ← validate_optional_str_list retrieved_docs;
  timestamp ← perform ReadClock (λ h, Return (datetime_now_isoformat svc h));
  mret {| ChatResponse.response := response;
          ChatResponse.category := category;
          ChatResponse.confidence := confidence;
          ChatResponse.reasoning := reasoning;
          ChatResponse.node_executed := node_executed;
          ChatResponse.requires_escalation := requires_escalation;
          ChatResponse.retrieved_docs := retrieved_docs;
          ChatResponse.timestamp := timestamp;
          ChatResponse.session_id := session_id |}.

Definition chat (svc : Services) (request : ChatRequest.t) : M reply :=
  try_except
    (result ← CustomerSupportWorkflow.process_query svc (ChatRequest.query request);
     response ← getitem result "response";
     category ← getitem result "category";
     confidence ← getitem result "confidence";
     reasoning ← getitem result "reasoning";
     node_executed ← getitem result "node_executed";
     requires_escalation ← getitem result "requires_escalation";
     body ← ChatResponse_init svc response category confidence reasoning
              node_executed requires_escalation
              (get result "retrieved_docs" VNone)
              (ChatRequest.session_id request);
     mret (OK body))
    (λ e, mret (HTTPException 500 ("Error processing query: " +:+ str_of e))).

End ApiServer.

(** ** Vocabulary of the properties *)

(** [part] occurs in [whole] ([part in whole] on str). *)
Definition occurs_in (part whole : string) : Prop :=
  ∃ before after, whole = before +:+ part +:+ after.

(** A result field is populated when it holds a non-empty list, respectively
    a non-empty dict. *)
Definition docs_populated (result : gmap string pyval) : Prop :=
  ∃ l, result !! "retrieved_docs" = Some (VList l) ∧ l ≠ [].

Definition log_populated (result : gmap string pyval) : Prop :=
  ∃ d, result !! "escalation_log" = Some (VDict d) ∧ d ≠ ∅.

(** The ways the body of [respond] can fail: its own retrieval, the retrieval
    inside the chain, or the generation. *)
Inductive responder_fails (svc : Services) (query category : string) (h : history)
    : Exception → Prop :=
| retrieval_fails e :
    similarity_search svc h query RAGResponder.k = Raise e →
    responder_fails svc query category h e
| chain_retrieval_fails docs e :
    similarity_search svc h query RAGResponder.k = Return docs →
    similarity_search svc (h ++ [InvokeRetriever query RAGResponder.k]) query
      RAGResponder.k = Raise e →
    responder_fails svc query category h e
| generation_fails docs docs' e :
    similarity_search svc h query RAGResponder.k = Return docs →
    similarity_search svc (h ++ [InvokeRetriever query RAGResponder.k]) query
      RAGResponder.k = Return docs' →
    chat_llm svc
      ((h ++ [InvokeRetriever query RAGResponder.k]) ++ [InvokeRetriever query RAGResponder.k])
      (RAGResponder.select_prompt category) (RAGResponder._format_docs docs') query
      = Raise e →
    responder_fails svc query category h e.


(** The reply with its [session_id] field replaced. *)
Definition with_session_id (sid : option string) (r : ApiServer.reply) : ApiServer.reply :=
  match r with
  | ApiServer.OK body =>
      ApiServer.OK
        {| ApiServer.ChatResponse.response := ApiServer.ChatResponse.response body;
           ApiServer.ChatResponse.category := ApiServer.ChatResponse.category body;
           ApiServer.ChatResponse.confidence := ApiServer.ChatResponse.confidence body;
           ApiServer.ChatResponse.reasoning := ApiServer.ChatResponse.reasoning body;
           ApiServer.ChatResponse.node_executed := ApiServer.ChatResponse.node_executed body;
           ApiServer.ChatResponse.requires_escalation :=
             ApiServer.ChatResponse.requires_escalation body;
           ApiServer.ChatResponse.retrieved_docs := ApiServer.ChatResponse.retrieved_docs body;
           ApiServer.ChatResponse.timestamp := ApiServer.ChatResponse.timestamp body;
           ApiServer.ChatResponse.session_id := sid |}
  | ApiServer.HTTPException status_code detail => ApiServer.HTTPException status_code detail
  end.

(** The state after the classifier node, for a classification (c, x, r). *)
Definition classified_state (query c : string) (x : float) (r : string)
    : gmap string pyval :=
  dict_update (CustomerSupportWorkflow.initial_state query)
    [("category", VStr c); ("confidence", VFloat x); ("reasoning", VStr r);
     ("node_executed", VStr "classifier")].

(** The three shapes of a completed state: after the responder, after the
    clarification request, after the human handoff. *)
Definition responded_state (query c : string) (x : float) (r text : string)
    (previews : list string) : gmap string pyval :=
  dict_update (classified_state query c x r)
    [("response", VStr text);
     ("retrieved_docs", VList (VStr <$> previews));
     ("node_executed", VStr "rag_responder");
     ("requires_escalation", VBool false)].

Definition clarified_state (query c : string) (x : float) (r : string)
    : gmap string pyval :=
  dict_update (classified_state query c x r)
    [("response", VStr (EscalationAgent.clarification_message query));
     ("node_executed", VStr "escalation");
     ("requires_escalation", VBool false);
     ("escalation_log", VDict ∅)].

Definition escalated_state (query c : string) (x : float) (r now : string)
    : gmap string pyval :=
  dict_update (classified_state query c x r)
    [("response",
      VStr (EscalationAgent.escalation_message query
              (EscalationAgent.escalation_reason c x)));
     ("node_executed", VStr "escalation");
     ("requires_escalation", VBool true);
     ("escalation_log",
      VDict (dict [("timestamp", VStr now);
                   ("query", VStr query);
                   ("category", VStr c);
                   ("confidence", VFloat x);
                   ("reasoning", VStr r);
                   ("status", VStr "escalated")]))].

(** ** Sample services *)

(** Capabilities that answer the same way on every call. *)
Definition steady_services (classification : outcome RawClassification)
    (fragments : outcome (list Document)) (generated : outcome string)
    (now : string) : Services :=
  {| structured_llm := λ _ _, classification;
     similarity_search := λ _ _ _, fragments;
     chat_llm := λ _ _ _ _, generated;
     datetime_now_isoformat := λ _, now |}.

Definition is_classifier_call (c : call) : bool :=
  match c with InvokeClassifier _ => true | _ => false end.

(** A classification backend that times out on the first attempt and would
    answer on a second one. *)
Definition flaky_services : Services :=
  {| structured_llm := λ h _,
       if existsb is_classifier_call h
       then Return {| raw_category := "products"; raw_confidence := 0.95;
                      raw_reasoning := "Query is asking about product price" |}
       else Raise (Exc "504 Deadline Exceeded");
     similarity_search := λ _ _ _, Return [];
     chat_llm := λ _ _ _ _, Return "The SmartWatch Pro X is priced at 15,999.";
     datetime_now_isoformat := λ _, "2026-01-30T10:30:00" |}.

(** * Properties *)

Import CustomerSupportWorkflow.

(** ** Running the monad *)

Lemma bind_Return {A B} (m : M A) (f : A → M B) h a h' :
  m h = (Return a, h') → (m ≫= f) h = f a h'.
Proof. intros Hm. unfold mbind, M_bind. by rewrite Hm. Qed.

Lemma Return_pair_inj {A} (a b : A) (h h' : history) :
  (Return a, h) = (Return b, h') → a = b.
Proof. congruence. Qed.

Lemma getitem_Some d key v h :
  d !! key = Some v → getitem d key h = (Return v, h).
Proof. intros Hd. unfold getitem. by rewrite Hd. Qed.

Lemma String_eqb_false s t : s ≠ t → String.eqb s t = false.
Proof. intros Hne. by apply String.eqb_neq. Qed.

(** ** The router *)

(** C1: the router is total and deterministic over (category, confidence) and
    leaves the call history alone; a state whose category is "unhandled" is
    routed to "escalate" whatever its confidence entry holds (that check comes
    first); for any other category and a float confidence the branch is
    "escalate" exactly when confidence < 0.7 and "rag" otherwise. *)
Theorem route_query_policy (state : gmap string pyval) (c : string) (v : pyval)
    (h : history) :
  state !! "category" = Some (VStr c) →
  state !! "confidence" = Some v →
  (c = "unhandled" → _route_query state h = (Return "escalate", h)) ∧
  (∀ x : float, v = VFloat x →
     ∃ branch,
       _route_query state h = (Return branch, h) ∧
       (branch = "escalate" ∨ branch = "rag") ∧
       (c ≠ "unhandled" →
          (branch = "escalate" ↔ PrimFloat.ltb x 0.7 = true) ∧
          (branch = "rag" ↔ PrimFloat.ltb x 0.7 = false))).
Proof.
  intros Hc Hv. unfold _route_query.
  rewrite (bind_Return _ _ h (VStr c) h (getitem_Some _ _ _ _ Hc)).
  rewrite (bind_Return _ _ h v h (getitem_Some _ _ _ _ Hv)).
  split.
  - intros ->. reflexivity.
  - intros x ->. cbn [py_eq_str].
    destruct (String.eqb_spec c "unhandled") as [->|Hne].
    + exists "escalate". split; [reflexivity|]. split; [by left|]. done.
    + cbn [py_lt_float]. unfold mbind, M_bind, mret, M_ret.
      destruct (PrimFloat.ltb x 0.7) eqn:Hlt.
      * exists "escalate". repeat split; auto; discriminate.
      * exists "rag". repeat split; auto; discriminate.
Qed.

Lemma route_query_policy_witness :
  let state := initial_state "What is the price of the SmartWatch Pro X?" in
  state !! "category" = Some (VStr "general") ∧
  state !! "confidence" = Some (VFloat 0.0) ∧
  _route_query state [] = (Return "escalate", []).
Proof.
  intros state.
  assert (Hc : state !! "category" = Some (VStr "general")) by reflexivity.
  assert (Hv : state !! "confidence" = Some (VFloat 0.0)) by reflexivity.
  split; [exact Hc|]. split; [exact Hv|].
  destruct (route_query_policy state "general" (VFloat 0.0) [] Hc Hv) as [_ Hfloat].
  destruct (Hfloat 0.0%float eq_refl) as (branch & Hrun & _ & Hpol).
  rewrite Hrun. f_equal. f_equal.
  apply Hpol; [discriminate|reflexivity].
Defined.

(** ** The classifier *)

(** Whatever the backend does, [classify] returns a dict and makes exactly one
    backend call. *)
Lemma classify_returns (svc : Services) (query : string) (h : history) :
  ∃ c x r,
    ClassifierAgent.classify svc query h
    = (Return (dict [("category", VStr c); ("confidence", VFloat x);
                     ("reasoning", VStr r)]),
       h ++ [InvokeClassifier query]).
Proof.
  unfold ClassifierAgent.classify, try_except, ClassifierAgent.chain_invoke, perform,
    mbind, M_bind, mret, M_ret.
  destruct (structured_llm svc h query) as [raw|e]; [|by eauto].
  destruct (ClassifierAgent.validate raw) as [result|e]; by eauto.
Qed.

(** C2: when the classification backend raises, [classify] returns
    category "unhandled", confidence 0.0 and the reasoning
    "Classification error: " followed by the error text; the error is not
    propagated, and the call history grows by exactly one classifier call, on
    this path as on every other. *)
Theorem classify_backend_failure (svc : Services) (query : string) (h : history)
    (e : Exception) :
  structured_llm svc h query = Raise e →
  ClassifierAgent.classify svc query h
  = (Return (dict [("category", VStr "unhandled");
                   ("confidence", VFloat 0.0);
                   ("reasoning", VStr ("Classification error: " +:+ str_of e))]),
     h ++ [InvokeClassifier query])
  ∧ length (filter (λ c, is_classifier_call c = true)
              (ClassifierAgent.classify svc query h).2)
    = S (length (filter (λ c, is_classifier_call c = true) h)).
Proof.
  intros Hraise.
  assert (Hrun : ClassifierAgent.classify svc query h
    = (Return (dict [("category", VStr "unhandled");
                     ("confidence", VFloat 0.0);
                     ("reasoning", VStr ("Classification error: " +:+ str_of e))]),
       h ++ [InvokeClassifier query])).
  { unfold ClassifierAgent.classify, try_except, ClassifierAgent.chain_invoke, perform,
      mbind, M_bind, mret, M_ret.
    by rewrite Hraise. }
  split; [exact Hrun|].
  rewrite Hrun. cbn [snd]. rewrite filter_app, length_app.
  rewrite filter_cons_True by reflexivity. cbn. lia.
Qed.

Lemma classify_backend_failure_witness :
  structured_llm flaky_services [] "What is the price of the SmartWatch Pro X?"
  = Raise (Exc "504 Deadline Exceeded") ∧
  ClassifierAgent.classify flaky_services "What is the price of the SmartWatch Pro X?" []
  = (Return (dict [("category", VStr "unhandled");
                   ("confidence", VFloat 0.0);
                   ("reasoning",
                    VStr "Classification error: 504 Deadline Exceeded")]),
     [InvokeClassifier "What is the price of the SmartWatch Pro X?"]).
Proof.
  split; [reflexivity|].
  exact (proj1 (classify_backend_failure flaky_services
                  "What is the price of the SmartWatch Pro X?" []
                  (Exc "504 Deadline Exceeded") eq_refl)).
Defined.

(** ** Occurrences in a str *)

Lemma append_assoc (a b c : string) : (a +:+ b) +:+ c = a +:+ (b +:+ c).
Proof.
  induction a as [|ch a IH]; [reflexivity|].
  change (String ch ((a +:+ b) +:+ c) = String ch (a +:+ (b +:+ c))).
  by rewrite IH.
Qed.

Lemma occurs_in_prefix part after : occurs_in part (part +:+ after).
Proof. by exists EmptyString, after. Qed.

Lemma occurs_in_append_r part before whole :
  occurs_in part whole → occurs_in part (before +:+ whole).
Proof.
  intros (b & a & ->). exists (before +:+ b), a.
  by rewrite append_assoc.
Qed.

Lemma occurs_in_append_l part whole after :
  occurs_in part whole → occurs_in part (whole +:+ after).
Proof.
  intros (b & a & ->). exists b, (a +:+ after).
  by rewrite !append_assoc.
Qed.

(** ** The escalation handler *)

(** C4: the human-handoff result.  The reason is "This query requires human
    assistance" for category "unhandled", else "The query needs clarification"
    when confidence < 0.7, else "This request needs specialized support", and
    it is the reason printed in the response; requires_escalation is True; the
    log record has exactly the keys timestamp, query, category, confidence,
    reasoning and status, holds the arguments and the clock reading, and its
    status is "escalated". *)
Theorem escalate_reason_and_log (svc : Services) (query category : string)
    (confidence : float) (reasoning : string) (h : history) :
  ∃ result log,
    EscalationAgent.escalate svc query category confidence reasoning h
    = (Return result, h ++ [ReadClock]) ∧
    result !! "requires_escalation" = Some (VBool true) ∧
    result !! "response"
    = Some (VStr (EscalationAgent.escalation_message query
                    (EscalationAgent.escalation_reason category confidence))) ∧
    occurs_in (EscalationAgent.escalation_reason category confidence)
      (EscalationAgent.escalation_message query
         (EscalationAgent.escalation_reason category confidence)) ∧
    (category = "unhandled" →
       EscalationAgent.escalation_reason category confidence
       = "This query requires human assistance") ∧
    (category ≠ "unhandled" → PrimFloat.ltb confidence 0.7 = true →
       EscalationAgent.escalation_reason category confidence
       = "The query needs clarification") ∧
    (category ≠ "unhandled" → PrimFloat.ltb confidence 0.7 = false →
       EscalationAgent.escalation_reason category confidence
       = "This request needs specialized support") ∧
    result !! "escalation_log" = Some (VDict log) ∧
    dom log = list_to_set ["timestamp"; "query"; "category"; "confidence";
                           "reasoning"; "status"] ∧
    log !! "timestamp" = Some (VStr (datetime_now_isoformat svc h)) ∧
    log !! "query" = Some (VStr query) ∧
    log !! "category" = Some (VStr category) ∧
    log !! "confidence" = Some (VFloat confidence) ∧
    log !! "reasoning" = Some (VStr reasoning) ∧
    log !! "status" = Some (VStr "escalated") ∧
    occurs_in "requires human assistance" "This query requires human assistance" ∧
    occurs_in "needs clarification" "The query needs clarification" ∧
    occurs_in "needs specialized support" "This request needs specialized support".
Proof.
  eexists _, _. split; [reflexivity|].
  split; [reflexivity|]. split; [reflexivity|].
  split.
  { unfold EscalationAgent.escalation_message.
    do 5 apply occurs_in_append_r. apply occurs_in_prefix. }
  unfold EscalationAgent.escalation_reason.
  split; [by intros ->|].
  split; [intros Hne%String_eqb_false Hlt; by rewrite Hne, Hlt|].
  split; [intros Hne%String_eqb_false Hlt; by rewrite Hne, Hlt|].
  split; [reflexivity|].
  split; [reflexivity|].
  do 6 (split; [reflexivity|]).
  split; [by exists "This query ", EmptyString|].
  split; [by exists "The query ", EmptyString|].
  by exists "This request ", EmptyString.
Qed.

Lemma escalate_reason_and_log_witness :
  EscalationAgent.escalation_reason "unhandled" 0.95
  = "This query requires human assistance" ∧
  EscalationAgent.escalation_reason "general" 0.6 = "The query needs clarification" ∧
  EscalationAgent.escalation_reason "general" 0.7
  = "This request needs specialized support".
Proof.
  destruct (escalate_reason_and_log flaky_services "Can you help me hack something?"
              "unhandled" 0.95 "Inappropriate request" [])
    as (_ & _ & _ & _ & _ & _ & Hunhandled & _).
  destruct (escalate_reason_and_log flaky_services "The thing doesn't work"
              "general" 0.6 "Too vague to classify accurately" [])
    as (_ & _ & _ & _ & _ & _ & _ & Hlow & _).
  destruct (escalate_reason_and_log flaky_services "Tell me about gaming laptops"
              "general" 0.7 "Product question" [])
    as (_ & _ & _ & _ & _ & _ & _ & _ & Hhigh & _).
  split; [by apply Hunhandled|].
  split; [apply Hlow; [discriminate|reflexivity]|].
  apply Hhigh; [discriminate|reflexivity].
Defined.

(** ** The nodes *)

Lemma classifier_node_run (svc : Services) (query : string) (h : history) :
  ∃ c x r,
    ClassifierAgent.classify svc query h
    = (Return (dict [("category", VStr c); ("confidence", VFloat x);
                     ("reasoning", VStr r)]),
       h ++ [InvokeClassifier query]) ∧
    _classifier_node svc (initial_state query) h
    = (Return (classified_state query c x r), h ++ [InvokeClassifier query]).
Proof.
  destruct (classify_returns svc query h) as (c & x & r & Hcl).
  exists c, x, r. split; [exact Hcl|].
  unfold _classifier_node.
  rewrite (bind_Return _ _ h query h) by reflexivity.
  rewrite (bind_Return _ _ _ _ _ Hcl).
  reflexivity.
Qed.

Lemma needs_clarification_run (state : gmap string pyval) (c : string) (x : float)
    (h : history) :
  state !! "category" = Some (VStr c) →
  state !! "confidence" = Some (VFloat x) →
  needs_clarification state h
  = (Return (PrimFloat.ltb x 0.5 && negb (String.eqb c "unhandled")), h).
Proof.
  intros Hc Hx. unfold needs_clarification.
  rewrite (bind_Return _ _ h _ h (getitem_Some _ _ _ _ Hx)).
  rewrite (bind_Return _ _ h (PrimFloat.ltb x 0.5) h) by reflexivity.
  destruct (PrimFloat.ltb x 0.5); [|reflexivity].
  by rewrite (bind_Return _ _ h _ h (getitem_Some _ _ _ _ Hc)).
Qed.

Lemma getitem_as_str (state : gmap string pyval) key s h :
  state !! key = Some (VStr s) →
  (getitem state key ≫= as_str) h = (Return s, h).
Proof.
  intros Hs. by rewrite (bind_Return _ _ h _ h (getitem_Some _ _ _ _ Hs)).
Qed.

Lemma getitem_as_float (state : gmap string pyval) key x h :
  state !! key = Some (VFloat x) →
  (getitem state key ≫= as_float) h = (Return x, h).
Proof.
  intros Hx. by rewrite (bind_Return _ _ h _ h (getitem_Some _ _ _ _ Hx)).
Qed.

Section EscalationNode.

Variables (svc : Services) (state : gmap string pyval).
Variables (q c : string) (x : float) (r : string) (h : history).
Hypothesis Hq : state !! "query" = Some (VStr q).
Hypothesis Hc : state !! "category" = Some (VStr c).
Hypothesis Hx : state !! "confidence" = Some (VFloat x).

Lemma escalation_result_clarify :
  PrimFloat.ltb x 0.5 = true → c ≠ "unhandled" →
  escalation_result svc state h
  = (Return (EscalationAgent.generate_clarification_request q), h).
Proof using Hq Hc Hx.
  intros Hlow Hne%String_eqb_false. unfold escalation_result.
  rewrite (bind_Return _ _ h _ h (needs_clarification_run _ _ _ _ Hc Hx)).
  rewrite Hlow, Hne. cbn [andb negb].
  by rewrite (bind_Return _ _ h _ h (getitem_as_str _ _ _ _ Hq)).
Qed.

Lemma escalation_result_handoff :
  state !! "reasoning" = Some (VStr r) →
  PrimFloat.ltb x 0.5 = false ∨ c = "unhandled" →
  escalation_result svc state h = EscalationAgent.escalate svc q c x r h.
Proof using Hq Hc Hx.
  intros Hr Hother. unfold escalation_result.
  rewrite (bind_Return _ _ h _ h (needs_clarification_run _ _ _ _ Hc Hx)).
  assert (PrimFloat.ltb x 0.5 && negb (String.eqb c "unhandled") = false) as ->.
  { destruct Hother as [->| ->]; [reflexivity|]. apply andb_false_r. }
  rewrite (bind_Return _ _ h _ h (getitem_as_str _ _ _ _ Hq)).
  rewrite (bind_Return _ _ h _ h (getitem_as_str _ _ _ _ Hc)).
  rewrite (bind_Return _ _ h _ h (getitem_as_float _ _ _ _ Hx)).
  by rewrite (bind_Return _ _ h _ h (getitem_as_str _ _ _ _ Hr)).
Qed.

Lemma escalation_node_clarify :
  PrimFloat.ltb x 0.5 = true → c ≠ "unhandled" →
  _escalation_node svc state h
  = (Return (dict_update state
               [("response", VStr (EscalationAgent.clarification_message q));
                ("node_executed", VStr "escalation");
                ("requires_escalation", VBool false);
                ("escalation_log", VDict ∅)]), h).
Proof using Hq Hc Hx.
  intros Hlow Hne. unfold _escalation_node.
  rewrite (bind_Return _ _ h _ h (escalation_result_clarify Hlow Hne)).
  reflexivity.
Qed.

Lemma escalation_node_handoff :
  state !! "reasoning" = Some (VStr r) →
  PrimFloat.ltb x 0.5 = false ∨ c = "unhandled" →
  _escalation_node svc state h
  = (Return (dict_update state
               [("response",
                 VStr (EscalationAgent.escalation_message q
                         (EscalationAgent.escalation_reason c x)));
                ("node_executed", VStr "escalation");
                ("requires_escalation", VBool true);
                ("escalation_log",
                 VDict (dict [("timestamp", VStr (datetime_now_isoformat svc h));
                              ("query", VStr q);
                              ("category", VStr c);
                              ("confidence", VFloat x);
                              ("reasoning", VStr r);
                              ("status", VStr "escalated")]))]),
     h ++ [ReadClock]).
Proof using Hq Hc Hx.
  intros Hr Hother. unfold _escalation_node, mbind, M_bind.
  rewrite (escalation_result_handoff Hr Hother).
  reflexivity.
Qed.

End EscalationNode.

(** C3: in the escalation node, a state with confidence < 0.5 (in particular
    in [0, 0.5)) and a category other than "unhandled" is handed to the
    clarification request, whose result has needs_clarification = True and
    requires_escalation = False, and the node stores requires_escalation =
    False; every other state is handed to the human handoff [escalate]. *)
Theorem escalation_node_dispatch (svc : Services) (state : gmap string pyval)
    (q c : string) (x : float) (r : string) (h : history) :
  state !! "query" = Some (VStr q) →
  state !! "category" = Some (VStr c) →
  state !! "confidence" = Some (VFloat x) →
  state !! "reasoning" = Some (VStr r) →
  (PrimFloat.ltb x 0.5 = true → c ≠ "unhandled" →
     escalation_result svc state h
     = (Return (EscalationAgent.generate_clarification_request q), h) ∧
     EscalationAgent.generate_clarification_request q !! "needs_clarification"
     = Some (VBool true) ∧
     EscalationAgent.generate_clarification_request q !! "requires_escalation"
     = Some (VBool false) ∧
     ∃ state',
       _escalation_node svc state h = (Return state', h) ∧
       state' !! "requires_escalation" = Some (VBool false) ∧
       state' !! "response" = Some (VStr (EscalationAgent.clarification_message q)) ∧
       state' !! "node_executed" = Some (VStr "escalation")) ∧
  (PrimFloat.ltb x 0.5 = false ∨ c = "unhandled" →
     escalation_result svc state h = EscalationAgent.escalate svc q c x r h ∧
     ∃ state',
       _escalation_node svc state h = (Return state', h ++ [ReadClock]) ∧
       state' !! "requires_escalation" = Some (VBool true) ∧
       state' !! "response"
       = Some (VStr (EscalationAgent.escalation_message q
                       (EscalationAgent.escalation_reason c x))) ∧
       state' !! "node_executed" = Some (VStr "escalation")).
Proof.
  intros Hq Hc Hx Hr. split.
  - intros Hlow Hne.
    split; [by apply (escalation_result_clarify svc state q c x h)|].
    split; [reflexivity|]. split; [reflexivity|].
    eexists. split; [by apply (escalation_node_clarify svc state q c x h)|].
    cbn [dict_update foldl fst snd]. by simplify_map_eq.
  - intros Hother.
    split; [by apply (escalation_result_handoff svc state q c x r h)|].
    eexists. split; [by apply (escalation_node_handoff svc state q c x r h)|].
    cbn [dict_update foldl fst snd]. by simplify_map_eq.
Qed.

Lemma escalation_node_dispatch_witness :
  let state := classified_state "The thing is broken" "general" 0.3 "Too vague" in
  let agent := steady_services (Raise (Exc "unused")) (Return []) (Return "unused")
                 "2026-01-30T10:30:00" in
  PrimFloat.ltb 0.3 0.5 = true ∧
  escalation_result agent state []
  = (Return (EscalationAgent.generate_clarification_request "The thing is broken"), []) ∧
  (classified_state "Tell me about gaming laptops" "products" 0.6 "Product question")
    !! "confidence" = Some (VFloat 0.6) ∧
  escalation_result agent
    (classified_state "Tell me about gaming laptops" "products" 0.6 "Product question") []
  = EscalationAgent.escalate agent "Tell me about gaming laptops" "products" 0.6
      "Product question" [].
Proof.
  intros state agent.
  split; [reflexivity|]. split.
  - apply (escalation_node_dispatch agent state "The thing is broken" "general" 0.3
             "Too vague" []); try reflexivity. discriminate.
  - split; [reflexivity|].
    apply (escalation_node_dispatch agent
             (classified_state "Tell me about gaming laptops" "products" 0.6
                "Product question")
             "Tell me about gaming laptops" "products" 0.6 "Product question" []);
      try reflexivity.
    by left.
Defined.

(** ** The responder *)



Section Respond.

Variables (svc : Services) (query category : string) (h : history).


Lemma respond_failure e :
  responder_fails svc query category h e →
  ∃ h',
    RAGResponder.respond svc query category h
    = (Return (dict [("response", VStr RAGResponder.apology);
                     ("retrieved_docs", VList []);
                     ("num_docs", VInt 0);
                     ("success", VBool false);
                     ("error", VStr (str_of e))]), h').
Proof.
  unfold RAGResponder.respond, try_except, RAGResponder.rag_chain_invoke,
    RAGResponder.retriever_invoke, perform, mbind, M_bind, mret, M_ret, RAGResponder.k.
  intros [e' H1|docs e' H1 H2|docs docs' e' H1 H2 H3]; unfold RAGResponder.k in *.
  - rewrite H1. eauto.
  - rewrite H1, H2. eauto.
  - rewrite H1, H2, H3. eauto.
Qed.

(** [respond] never raises; its result always has a str response and a list
    of str previews. *)
Lemma respond_returns :
  ∃ result h' text previews,
    RAGResponder.respond svc query category h = (Return result, h') ∧
    result !! "response" = Some (VStr text) ∧
    result !! "retrieved_docs" = Some (VList (VStr <$> previews)).
Proof.
  unfold RAGResponder.respond, try_except, RAGResponder.rag_chain_invoke,
    RAGResponder.retriever_invoke, perform, mbind, M_bind, mret, M_ret.
  destruct (similarity_search svc h query RAGResponder.k) as [docs|e].
  2:{ eexists _, _, _, []. by split_and!. }
  destruct (similarity_search svc _ query RAGResponder.k) as [docs'|e].
  2:{ eexists _, _, _, []. by split_and!. }
  destruct (chat_llm svc _ _ _ query) as [answer|e].
  2:{ eexists _, _, _, []. by split_and!. }
  eexists _, _, _, ((λ d, slice_to 200 (page_content d) +:+ "...") <$> docs).
  split; [reflexivity|]. split; [reflexivity|].
  rewrite <- list_fmap_compose. reflexivity.
Qed.

End Respond.

(** C5: when the retrieval, the retrieval inside the chain or the generation
    raises, [respond] does not raise: it returns the fixed apology, which
    names the support address, with success = False, retrieved_docs = [] and
    num_docs = 0, and keeps the error text under "error". *)
Theorem respond_failure_fallback (svc : Services) (query category : string)
    (h : history) (e : Exception) :
  responder_fails svc query category h e →
  ∃ result h',
    RAGResponder.respond svc query category h = (Return result, h') ∧
    result !! "response"
    = Some (VStr "I apologize, but I encountered an error processing your request. Please contact support@techgear.com") ∧
    occurs_in "support@techgear.com" RAGResponder.apology ∧
    result !! "success" = Some (VBool false) ∧
    result !! "retrieved_docs" = Some (VList []) ∧
    result !! "num_docs" = Some (VInt 0) ∧
    result !! "error" = Some (VStr (str_of e)) ∧
    dom result = list_to_set ["response"; "retrieved_docs"; "num_docs"; "success"; "error"].
Proof.
  intros Hfail.
  destruct (respond_failure svc query category h e Hfail) as (h' & Hrun).
  eexists _, h'. split; [exact Hrun|].
  split; [reflexivity|].
  split.
  { by exists "I apologize, but I encountered an error processing your request. Please contact ",
      EmptyString. }
  by split_and!.
Qed.

Lemma respond_failure_fallback_witness :
  let down := steady_services (Raise (Exc "unused"))
                (Raise (Exc "chromadb: collection techgear_products does not exist"))
                (Return "unused") "2026-01-30T10:30:00" in
  responder_fails down "What is your return policy?" "returns" []
    (Exc "chromadb: collection techgear_products does not exist") ∧
  ∃ result h',
    RAGResponder.respond down "What is your return policy?" "returns" []
    = (Return result, h') ∧
    result !! "success" = Some (VBool false) ∧
    result !! "error"
    = Some (VStr "chromadb: collection techgear_products does not exist").
Proof.
  intros down.
  assert (Hfail : responder_fails down "What is your return policy?" "returns" []
                    (Exc "chromadb: collection techgear_products does not exist"))
    by (by apply retrieval_fails).
  split; [exact Hfail|].
  destruct (respond_failure_fallback down "What is your return policy?" "returns" []
              _ Hfail) as (result & h' & Hrun & _ & _ & Hsuccess & _ & _ & Herror & _).
  by exists result, h'.
Defined.




(** ** The graph *)

Lemma run_S (fuel : nat) (svc : Services) (n : node) (state : gmap string pyval) :
  run (S fuel) svc n state
  = (state' ← run_node svc n state;
     next ← successor n state';
     match next with
     | END => mret state'
     | To n' => run fuel svc n' state'
     end).
Proof. reflexivity. Qed.

Lemma run_terminal (fuel : nat) (svc : Services) (n : node)
    (state : gmap string pyval) (h : history) :
  (∀ state', successor n state' = mret END) →
  run (S fuel) svc n state h = run_node svc n state h.
Proof.
  intros Hend. rewrite run_S. unfold mbind, M_bind.
  destruct (run_node svc n state h) as [[state'|e] h']; [|reflexivity].
  by rewrite Hend.
Qed.

Lemma route_classified (query c : string) (x : float) (r : string) (h : history) :
  _route_query (classified_state query c x r) h
  = (Return (if String.eqb c "unhandled" then "escalate"
             else if PrimFloat.ltb x 0.7 then "escalate" else "rag"), h).
Proof.
  unfold _route_query.
  rewrite (bind_Return _ _ h (VStr c) h) by reflexivity.
  rewrite (bind_Return _ _ h (VFloat x) h) by reflexivity.
  cbn [py_eq_str py_lt_float]. destruct (String.eqb c "unhandled"); [reflexivity|].
  unfold mbind, M_bind, mret, M_ret. by destruct (PrimFloat.ltb x 0.7).
Qed.

(** A run of the workflow: the classifier node, then the node the router
    picks, then the end. *)
Lemma process_query_run (svc : Services) (query : string) (h : history) :
  ∃ c x r,
    ClassifierAgent.classify svc query h
    = (Return (dict [("category", VStr c); ("confidence", VFloat x);
                     ("reasoning", VStr r)]),
       h ++ [InvokeClassifier query]) ∧
    process_query svc query h
    = (if String.eqb c "unhandled" || PrimFloat.ltb x 0.7
       then _escalation_node svc (classified_state query c x r)
       else _rag_responder_node svc (classified_state query c x r))
        (h ++ [InvokeClassifier query]).
Proof.
  destruct (classifier_node_run svc query h) as (c & x & r & Hcl & Hnode).
  exists c, x, r. split; [exact Hcl|].
  unfold process_query, graph_invoke, recursion_limit, entry_point.
  rewrite run_S. cbn [run_node].
  rewrite (bind_Return _ _ _ _ _ Hnode).
  assert (Hsucc : successor classifier (classified_state query c x r)
                    (h ++ [InvokeClassifier query])
                  = (Return (To (if String.eqb c "unhandled" || PrimFloat.ltb x 0.7
                                 then escalation else rag_responder)),
                     h ++ [InvokeClassifier query])).
  { cbn [successor].
    rewrite (bind_Return _ _ _ _ _ (route_classified query c x r _)).
    destruct (String.eqb c "unhandled"); [reflexivity|].
    by destruct (PrimFloat.ltb x 0.7). }
  rewrite (bind_Return _ _ _ _ _ Hsucc).
  destruct (String.eqb c "unhandled"); cbn [orb].
  - by apply (run_terminal _ svc escalation).
  - destruct (PrimFloat.ltb x 0.7).
    + by apply (run_terminal _ svc escalation).
    + by apply (run_terminal _ svc rag_responder).
Qed.

Lemma rag_responder_node_run (svc : Services) (query c : string) (x : float)
    (r : string) (h : history) :
  ∃ text previews h',
    _rag_responder_node svc (classified_state query c x r) h
    = (Return (responded_state query c x r text previews), h').
Proof.
  destruct (respond_returns svc query c h)
    as (result & h' & text & previews & Hrun & Hresp & Hdocs).
  exists text, previews, h'. unfold _rag_responder_node.
  rewrite (bind_Return _ _ h query h) by reflexivity.
  rewrite (bind_Return _ _ h c h) by reflexivity.
  rewrite (bind_Return _ _ _ _ _ Hrun).
  rewrite (bind_Return _ _ _ _ _ (getitem_Some _ _ _ _ Hresp)).
  unfold get. rewrite Hdocs. reflexivity.
Qed.

(** Every run of [process_query] returns, in one of three shapes. *)
Lemma process_query_cases (svc : Services) (query : string) (h : history) :
  ∃ c x r,
    ClassifierAgent.classify svc query h
    = (Return (dict [("category", VStr c); ("confidence", VFloat x);
                     ("reasoning", VStr r)]),
       h ++ [InvokeClassifier query]) ∧
    ((c ≠ "unhandled" ∧ PrimFloat.ltb x 0.7 = false ∧
      ∃ text previews h',
        process_query svc query h
        = (Return (responded_state query c x r text previews), h')) ∨
     (c ≠ "unhandled" ∧ PrimFloat.ltb x 0.7 = true ∧ PrimFloat.ltb x 0.5 = true ∧
      process_query svc query h
      = (Return (clarified_state query c x r), h ++ [InvokeClassifier query])) ∨
     ((c = "unhandled" ∨ PrimFloat.ltb x 0.7 = true ∧ PrimFloat.ltb x 0.5 = false) ∧
      process_query svc query h
      = (Return (escalated_state query c x r
                   (datetime_now_isoformat svc (h ++ [InvokeClassifier query]))),
         (h ++ [InvokeClassifier query]) ++ [ReadClock]))).
Proof.
  destruct (process_query_run svc query h) as (c & x & r & Hcl & Hrun).
  exists c, x, r. split; [exact Hcl|]. rewrite Hrun. clear Hrun Hcl.
  destruct (String.eqb_spec c "unhandled") as [->|Hne]; cbn [orb].
  - right; right. split; [by left|].
    by apply (escalation_node_handoff svc _ query "unhandled" x r); [..|right].
  - destruct (PrimFloat.ltb x 0.7) eqn:H07.
    + destruct (PrimFloat.ltb x 0.5) eqn:H05.
      * right; left. split_and!; try done.
        by apply (escalation_node_clarify svc _ query c x).
      * right; right. split; [by right|].
        by apply (escalation_node_handoff svc _ query c x r); [..|left].
    + left. split_and!; try done. apply rag_responder_node_run.
Qed.

(** ** Completed results *)

Lemma escalation_log_nonempty (now query c : string) (x : float) (r : string) :
  dict [("timestamp", VStr now); ("query", VStr query); ("category", VStr c);
        ("confidence", VFloat x); ("reasoning", VStr r);
        ("status", VStr "escalated")] ≠ ∅.
Proof. intros Heq. by apply (f_equal (λ m : gmap string pyval, m !! "status")) in Heq. Qed.

(** C7 as stated fails: on the clarification sub-path the completed result has
    neither field populated. *)
Lemma result_exclusivity_counterexample :
  let vague := steady_services
                 (Return {| raw_category := "general"; raw_confidence := 0.3;
                            raw_reasoning := "Too vague to classify accurately" |})
                 (Return [{| page_content := "Warranty: 1 year" |}])
                 (Return "unused") "2026-01-30T10:30:00" in
  ∃ result h',
    process_query vague "The thing is broken" [] = (Return result, h') ∧
    result !! "node_executed" = Some (VStr "escalation") ∧
    result !! "retrieved_docs" = Some (VList []) ∧
    result !! "escalation_log" = Some (VDict ∅) ∧
    ¬ docs_populated result ∧
    ¬ log_populated result.
Proof.
  intros vague. eexists _, _. split; [reflexivity|].
  split; [reflexivity|]. split; [reflexivity|]. split; [reflexivity|].
  split.
  - intros (l & Hl & Hne). by injection Hl as <-.
  - intros (d & Hd & Hne). by injection Hd as <-.
Qed.

(** C7, amended: every run of [process_query] returns a result in which
    retrieved_docs and escalation_log are never both populated; populated
    retrieved_docs come with node_executed = "rag_responder" and a populated
    escalation_log with node_executed = "escalation"; node_executed is one of
    the two.  After the escalation node the log is populated exactly when
    requires_escalation is True (the human handoff), and retrieved_docs is
    empty; after the responder node the log is empty. *)
Theorem result_exclusivity (svc : Services) (query : string) (h : history) :
  ∃ result h',
    process_query svc query h = (Return result, h') ∧
    ¬ (docs_populated result ∧ log_populated result) ∧
    (docs_populated result → result !! "node_executed" = Some (VStr "rag_responder")) ∧
    (log_populated result → result !! "node_executed" = Some (VStr "escalation")) ∧
    (result !! "node_executed" = Some (VStr "rag_responder") ∨
     result !! "node_executed" = Some (VStr "escalation")) ∧
    (result !! "node_executed" = Some (VStr "escalation") →
       ¬ docs_populated result ∧
       (log_populated result ↔ result !! "requires_escalation" = Some (VBool true))) ∧
    (result !! "node_executed" = Some (VStr "rag_responder") →
       ¬ log_populated result ∧
       result !! "requires_escalation" = Some (VBool false)).
Proof.
  destruct (process_query_cases svc query h) as (c & x & r & _ & Hcases).
  destruct Hcases as [(_ & _ & text & previews & h' & Hrun)
                     |[(_ & _ & _ & Hrun)|(_ & Hrun)]];
    eexists _, _; (split; [exact Hrun|]).
  - assert (Hlog : ¬ log_populated (responded_state query c x r text previews)).
    { intros (d & Hd & Hne). by injection Hd as <-. }
    split_and!; try done.
    + by intros [_ ?].
    + by left.
  - assert (Hlog : ¬ log_populated (clarified_state query c x r)).
    { intros (d & Hd & Hne). by injection Hd as <-. }
    assert (Hdocs : ¬ docs_populated (clarified_state query c x r)).
    { intros (l & Hl & Hne). by injection Hl as <-. }
    split_and!; try done.
    + by intros [_ ?].
    + by right.
  - set (now := datetime_now_isoformat svc _).
    assert (Hlog : log_populated (escalated_state query c x r now)).
    { eexists. split; [reflexivity|]. apply escalation_log_nonempty. }
    assert (Hdocs : ¬ docs_populated (escalated_state query c x r now)).
    { intros (l & Hl & Hne). by injection Hl as <-. }
    split_and!; try done.
    + by intros [? _].
    + by right.
Qed.

Lemma result_exclusivity_witness :
  let answering := steady_services
                     (Return {| raw_category := "products"; raw_confidence := 0.95;
                                raw_reasoning := "Query is asking about product price" |})
                     (Return [{| page_content := "Product: SmartWatch Pro X" |}])
                     (Return "The SmartWatch Pro X is priced at 15,999.")
                     "2026-01-30T10:30:00" in
  ∃ result h',
    process_query answering "What is the price of the SmartWatch Pro X?" []
    = (Return result, h') ∧
    result !! "retrieved_docs" = Some (VList [VStr "Product: SmartWatch Pro X..."]) ∧
    result !! "node_executed" = Some (VStr "rag_responder") ∧
    ¬ log_populated result.
Proof.
  intros answering.
  destruct (result_exclusivity answering "What is the price of the SmartWatch Pro X?" [])
    as (result & h' & Hrun & _ & _ & _ & _ & _ & Hrag).
  exists result, h'. split; [exact Hrun|].
  injection Hrun as <- <-.
  split; [reflexivity|]. split; [reflexivity|].
  by apply Hrag.
Defined.

(** ** Degradation when the classification backend fails *)

(** C8: when the classification backend raises, [classify] returns category
    "unhandled", confidence 0.0 and a reasoning that contains
    "Classification error"; the router sends the classified state to
    "escalate"; and the completed result comes from the escalation node with
    the reason "This query requires human assistance" in its response and
    requires_escalation = True. *)
Theorem classification_failure_escalates (svc : Services) (query : string)
    (h : history) (e : Exception) :
  structured_llm svc h query = Raise e →
  let reasoning := "Classification error: " +:+ str_of e in
  let h1 := h ++ [InvokeClassifier query] in
  ClassifierAgent.classify svc query h
  = (Return (dict [("category", VStr "unhandled"); ("confidence", VFloat 0.0);
                   ("reasoning", VStr reasoning)]), h1) ∧
  occurs_in "Classification error" reasoning ∧
  _route_query (classified_state query "unhandled" 0.0 reasoning) h1
  = (Return "escalate", h1) ∧
  ∃ result,
    process_query svc query h = (Return result, h1 ++ [ReadClock]) ∧
    result !! "category" = Some (VStr "unhandled") ∧
    result !! "confidence" = Some (VFloat 0.0) ∧
    result !! "reasoning" = Some (VStr reasoning) ∧
    result !! "node_executed" = Some (VStr "escalation") ∧
    result !! "requires_escalation" = Some (VBool true) ∧
    result !! "response"
    = Some (VStr (EscalationAgent.escalation_message query
                    "This query requires human assistance")) ∧
    occurs_in "requires human assistance"
      (EscalationAgent.escalation_message query "This query requires human assistance") ∧
    log_populated result.
Proof.
  intros Hraise reasoning h1.
  destruct (classify_backend_failure svc query h e Hraise) as [Hcl _].
  split; [exact Hcl|].
  split; [by exists EmptyString, (": " +:+ str_of e)|].
  split; [by rewrite route_classified|].
  destruct (process_query_run svc query h) as (c & x & r & Hcl' & Hrun).
  rewrite Hcl in Hcl'. apply Return_pair_inj in Hcl' as Hdict.
  assert (Hc : c = "unhandled").
  { apply (f_equal (λ m : gmap string pyval, m !! "category")) in Hdict.
    by injection Hdict. }
  assert (Hx : x = 0.0%float).
  { apply (f_equal (λ m : gmap string pyval, m !! "confidence")) in Hdict.
    by injection Hdict. }
  assert (Hr : r = reasoning).
  { apply (f_equal (λ m : gmap string pyval, m !! "reasoning")) in Hdict.
    by injection Hdict. }
  subst c x r.
  change (String.eqb "unhandled" "unhandled") with true in Hrun. cbn [orb] in Hrun.
  subst h1.
  rewrite (escalation_node_handoff svc _ query "unhandled" 0.0 reasoning) in Hrun;
    [|reflexivity..|by right].
  eexists. split; [exact Hrun|].
  do 6 (split; [reflexivity|]).
  split.
  { unfold EscalationAgent.escalation_message.
    do 5 apply occurs_in_append_r. apply occurs_in_append_l.
    by exists "This query ", EmptyString. }
  eexists. split; [reflexivity|]. apply escalation_log_nonempty.
Qed.

Lemma classification_failure_escalates_witness :
  structured_llm flaky_services [] "What is your return policy?"
  = Raise (Exc "504 Deadline Exceeded") ∧
  ∃ result,
    process_query flaky_services "What is your return policy?" []
    = (Return result, [InvokeClassifier "What is your return policy?"; ReadClock]) ∧
    result !! "node_executed" = Some (VStr "escalation") ∧
    result !! "requires_escalation" = Some (VBool true) ∧
    result !! "reasoning"
    = Some (VStr "Classification error: 504 Deadline Exceeded").
Proof.
  split; [reflexivity|].
  destruct (classification_failure_escalates flaky_services
              "What is your return policy?" [] (Exc "504 Deadline Exceeded") eq_refl)
    as (_ & _ & _ & result & Hrun & _ & _ & Hreasoning & Hnode & Hesc & _).
  exists result. by split_and!.
Defined.

(** ** The clarification sub-path *)

Lemma classification_inj (c c' : string) (x x' : float) (r r' : string) :
  dict [("category", VStr c); ("confidence", VFloat x); ("reasoning", VStr r)]
  = dict [("category", VStr c'); ("confidence", VFloat x'); ("reasoning", VStr r')] →
  c = c' ∧ x = x' ∧ r = r'.
Proof.
  intros Hdict. split_and!.
  - apply (f_equal (λ m : gmap string pyval, m !! "category")) in Hdict.
    by injection Hdict.
  - apply (f_equal (λ m : gmap string pyval, m !! "confidence")) in Hdict.
    by injection Hdict.
  - apply (f_equal (λ m : gmap string pyval, m !! "reasoning")) in Hdict.
    by injection Hdict.
Qed.

(** C10: on the clarification sub-path the escalation node takes the response
    from the handler's result, sets node_executed, takes requires_escalation
    (False) and finds no escalation_log, so it stores the empty dict; every
    other key of the state is left as it was, and the needs_clarification
    flag of the handler's result is not copied.  No completed result of
    [process_query] has a needs_clarification key: its keys are the ten keys
    of the state; and on this sub-path its escalation_log is the empty
    dict. *)
Theorem clarification_drops_flag (svc : Services) :
  (∀ (state : gmap string pyval) (q c : string) (x : float) (h : history),
     state !! "query" = Some (VStr q) →
     state !! "category" = Some (VStr c) →
     state !! "confidence" = Some (VFloat x) →
     PrimFloat.ltb x 0.5 = true → c ≠ "unhandled" →
     EscalationAgent.generate_clarification_request q !! "needs_clarification"
     = Some (VBool true) ∧
     EscalationAgent.generate_clarification_request q !! "escalation_log" = None ∧
     ∃ state',
       _escalation_node svc state h = (Return state', h) ∧
       state' !! "response" = Some (VStr (EscalationAgent.clarification_message q)) ∧
       state' !! "node_executed" = Some (VStr "escalation") ∧
       state' !! "requires_escalation" = Some (VBool false) ∧
       state' !! "escalation_log" = Some (VDict ∅) ∧
       (∀ key, key ∉ ["response"; "node_executed"; "requires_escalation";
                      "escalation_log"] →
               state' !! key = state !! key)) ∧
  (∀ (query : string) (h : history),
     ∃ result h',
       process_query svc query h = (Return result, h') ∧
       result !! "needs_clarification" = None ∧
       dom result = list_to_set ["query"; "category"; "confidence"; "reasoning";
                                 "retrieved_docs"; "context"; "response";
                                 "node_executed"; "requires_escalation";
                                 "escalation_log"] ∧
       (∀ c x r,
          ClassifierAgent.classify svc query h
          = (Return (dict [("category", VStr c); ("confidence", VFloat x);
                           ("reasoning", VStr r)]),
             h ++ [InvokeClassifier query]) →
          c ≠ "unhandled" → PrimFloat.ltb x 0.7 = true → PrimFloat.ltb x 0.5 = true →
          h' = h ++ [InvokeClassifier query] ∧
          result !! "response"
          = Some (VStr (EscalationAgent.clarification_message query)) ∧
          result !! "node_executed" = Some (VStr "escalation") ∧
          result !! "requires_escalation" = Some (VBool false) ∧
          result !! "escalation_log" = Some (VDict ∅))).
Proof.
  split.
  - intros state q c x h Hq Hc Hx Hlow Hne.
    split; [reflexivity|]. split; [reflexivity|].
    eexists. split; [by apply (escalation_node_clarify svc state q c x h)|].
    cbn [dict_update foldl fst snd].
    split_and!; try by simplify_map_eq.
    intros key Hkey.
    rewrite !lookup_insert_ne; [done|intros <-; apply Hkey; set_solver..].
  - intros query h.
    destruct (process_query_cases svc query h) as (c & x & r & Hcl & Hcases).
    destruct Hcases as [(Hne & H07 & text & previews & h' & Hrun)
                       |[(Hne & H07 & H05 & Hrun)|(Hother & Hrun)]];
      eexists _, _; (split; [exact Hrun|]);
      (split; [reflexivity|]); (split; [reflexivity|]);
      intros c' x' r' Hcl' Hne' H07' H05';
      rewrite Hcl in Hcl'; apply Return_pair_inj, classification_inj in Hcl';
      destruct Hcl' as (-> & -> & ->).
    + congruence.
    + by split_and!.
    + destruct Hother as [->|[_ H05]]; congruence.
Qed.

Lemma clarification_drops_flag_witness :
  let vague := steady_services
                 (Return {| raw_category := "general"; raw_confidence := 0.3;
                            raw_reasoning := "Too vague to classify accurately" |})
                 (Return [{| page_content := "Warranty: 1 year" |}])
                 (Return "unused") "2026-01-30T10:30:00" in
  let state := classified_state "The thing is broken" "general" 0.3
                 "Too vague to classify accurately" in
  state !! "confidence" = Some (VFloat 0.3) ∧
  PrimFloat.ltb 0.3 0.5 = true ∧
  ∃ state',
    _escalation_node vague state [InvokeClassifier "The thing is broken"]
    = (Return state', [InvokeClassifier "The thing is broken"]) ∧
    state' !! "escalation_log" = Some (VDict ∅) ∧
    state' !! "needs_clarification" = None.
Proof.
  intros vague state. split; [reflexivity|]. split; [reflexivity|].
  destruct (proj1 (clarification_drops_flag vague) state "The thing is broken"
              "general" 0.3%float [InvokeClassifier "The thing is broken"]
              eq_refl eq_refl eq_refl eq_refl)
    as (_ & _ & state' & Hrun & _ & _ & _ & Hlog & Hframe); [discriminate|].
  exists state'. split; [exact Hrun|]. split; [exact Hlog|].
  rewrite Hframe; [reflexivity|].
  rewrite !not_elem_of_cons. split_and!; try discriminate. apply not_elem_of_nil.
Defined.

(** ** The session identifier *)

(** The response model keeps the session id apart from every other field. *)
Lemma ChatResponse_init_session_id (svc : Services)
    (response category confidence reasoning node_executed requires_escalation
       retrieved_docs : pyval) (sid : option string) (h : history) :
  ApiServer.ChatResponse_init svc response category confidence reasoning
    node_executed requires_escalation retrieved_docs sid h
  = match ApiServer.ChatResponse_init svc response category confidence reasoning
            node_executed requires_escalation retrieved_docs None h with
    | (Return body, h') =>
        (match with_session_id sid (ApiServer.OK body) with
         | ApiServer.OK body' => Return body'
         | ApiServer.HTTPException _ detail => Raise (Exc detail)
         end, h')
    | (Raise e, h') => (Raise e, h')
    end.
Proof.
  unfold ApiServer.ChatResponse_init, as_str, as_float, ApiServer.validate_bool,
    ApiServer.validate_optional_str_list, perform, raise, mbind, M_bind, mret, M_ret.
  destruct response; try reflexivity.
  destruct category; try reflexivity.
  destruct confidence; try reflexivity.
  destruct reasoning; try reflexivity.
  destruct node_executed; try reflexivity.
  destruct requires_escalation; try reflexivity.
  destruct retrieved_docs as [| | | | |l|]; try reflexivity.
  by destruct (ApiServer.validate_str_list l h) as [[strs|e] h'].
Qed.

(** C9 as stated fails: [process_query] takes the query alone, and its result
    has no session entry even when the request carries a session id. *)
Lemma session_id_counterexample :
  let answering := steady_services
                     (Return {| raw_category := "returns"; raw_confidence := 0.95;
                                raw_reasoning := "Query is about the return policy" |})
                     (Return [{| page_content := "Return policy: 30 days" |}])
                     (Return "You can return items within 30 days.")
                     "2026-01-30T10:30:00" in
  let request := {| ApiServer.ChatRequest.query := "What is your return policy?";
                    ApiServer.ChatRequest.session_id := Some "user_123" |} in
  let result := responded_state "What is your return policy?" "returns" 0.95
                  "Query is about the return policy"
                  "You can return items within 30 days."
                  ["Return policy: 30 days..."] in
  process_query answering (ApiServer.ChatRequest.query request) []
  = (Return result,
     [InvokeClassifier "What is your return policy?";
      InvokeRetriever "What is your return policy?" 4;
      InvokeRetriever "What is your return policy?" 4;
      InvokeLLM (RAGResponder.select_prompt "returns") "Return policy: 30 days"
        "What is your return policy?"]) ∧
  result !! "session_id" = None ∧
  result !! "sessionId" = None ∧
  ¬ ∃ key, result !! key = Some (VStr "user_123").
Proof.
  intros answering request result. split; [reflexivity|].
  split; [reflexivity|]. split; [reflexivity|].
  intros (key & Hkey).
  assert (Hdom : key ∈ dom result) by (apply elem_of_dom; eexists; exact Hkey).
  change (key ∈ (list_to_set ["query"; "category"; "confidence"; "reasoning";
                              "retrieved_docs"; "context"; "response";
                              "node_executed"; "requires_escalation";
                              "escalation_log"] : gset string)) in Hdom.
  rewrite elem_of_list_to_set in Hdom.
  repeat (apply elem_of_cons in Hdom as [->|Hdom];
          [vm_compute in Hkey; discriminate Hkey|]).
  by apply elem_of_nil in Hdom.
Qed.

(** C9, amended: the session id is accepted by the chat endpoint, not by
    [process_query].  The endpoint never raises; the reply to a request with a
    session id is the reply to the same request without one, with the
    session_id field replaced by the request's, and with the same calls to the
    outside; a successful reply echoes the session id unchanged. *)
Theorem chat_session_id (svc : Services) (query : string) (sid : option string)
    (h : history) :
  ∃ reply h',
    ApiServer.chat svc {| ApiServer.ChatRequest.query := query;
                          ApiServer.ChatRequest.session_id := None |} h
    = (Return reply, h') ∧
    ApiServer.chat svc {| ApiServer.ChatRequest.query := query;
                          ApiServer.ChatRequest.session_id := sid |} h
    = (Return (with_session_id sid reply), h') ∧
    (∀ body, with_session_id sid reply = ApiServer.OK body →
             ApiServer.ChatResponse.session_id body = sid).
Proof.
  unfold ApiServer.chat, try_except. cbn [ApiServer.ChatRequest.query
    ApiServer.ChatRequest.session_id].
  unfold mbind at 1 9, M_bind at 1 9.
  destruct (process_query svc query h) as [[result|e] h1].
  2:{ eexists _, _. split; [reflexivity|]. split; [reflexivity|]. by intros body. }
  unfold getitem, raise, mbind, M_bind, mret, M_ret.
  destruct (result !! "response") as [response|].
  2:{ eexists _, _. split; [reflexivity|]. split; [reflexivity|]. by intros body. }
  destruct (result !! "category") as [category|].
  2:{ eexists _, _. split; [reflexivity|]. split; [reflexivity|]. by intros body. }
  destruct (result !! "confidence") as [confidence|].
  2:{ eexists _, _. split; [reflexivity|]. split; [reflexivity|]. by intros body. }
  destruct (result !! "reasoning") as [reasoning|].
  2:{ eexists _, _. split; [reflexivity|]. split; [reflexivity|]. by intros body. }
  destruct (result !! "node_executed") as [node_executed|].
  2:{ eexists _, _. split; [reflexivity|]. split; [reflexivity|]. by intros body. }
  destruct (result !! "requires_escalation") as [requires_escalation|].
  2:{ eexists _, _. split; [reflexivity|]. split; [reflexivity|]. by intros body. }
  rewrite (ChatResponse_init_session_id svc response category confidence reasoning
             node_executed requires_escalation _ sid h1).
  destruct (ApiServer.ChatResponse_init svc response category confidence reasoning
              node_executed requires_escalation _ None h1) as [[body|e] h2].
  - eexists _, _. split; [reflexivity|]. split; [reflexivity|].
    cbn. by intros body' [= <-].
  - eexists _, _. split; [reflexivity|]. split; [reflexivity|]. by intros body.
Qed.

Lemma chat_session_id_witness :
  let answering := steady_services
                     (Return {| raw_category := "returns"; raw_confidence := 0.95;
                                raw_reasoning := "Query is about the return policy" |})
                     (Return [{| page_content := "Return policy: 30 days" |}])
                     (Return "You can return items within 30 days.")
                     "2026-01-30T10:30:00" in
  ∃ body h',
    ApiServer.chat answering
      {| ApiServer.ChatRequest.query := "What is your return policy?";
         ApiServer.ChatRequest.session_id := Some "user_123" |} []
    = (Return (ApiServer.OK body), h') ∧
    ApiServer.ChatResponse.session_id body = Some "user_123" ∧
    ApiServer.ChatResponse.node_executed body = "rag_responder".
Proof.
  intros answering.
  destruct (chat_session_id answering "What is your return policy?" (Some "user_123") [])
    as (reply & h' & Hnone & Hsome & Hecho).
  injection Hnone as <- <-.
  eexists _, _. split; [exact Hsome|].
  split; [by apply Hecho|reflexivity].
Defined.
